(** * Homefinder: session tokens and request wrappers

    A shallow embedding of the token-renewal code of the real-estate
    frontend ([refreshToken] and the helpers it calls), of the request
    wrappers for the Google sign-in, the save toggle and the property
    creation, and of the state of the listing page.

    JavaScript values are modelled by the inductive type [Js.value];
    effects (the token store, the outgoing HTTP requests, what the user
    interface is told, thrown exceptions) by a state-and-exception
    monad [M] over a [World]. *)

From Stdlib Require Import String List ZArith Bool Lia.
From Stdlib Require Import DecimalString DecimalPos DecimalZ.
Import ListNotations.
Open Scope string_scope.

Set Warnings "-register-all".

(* ================================================================= *)
(** ** JavaScript values *)

Module Js.

(** The values that can travel in a JSON body or sit in a variable of
    the modelled code.  Numbers are restricted to the integers that
    JavaScript represents exactly and prints in plain decimal; an object
    lists its own properties in enumeration order, each key once. *)
Inductive value : Type :=
| Undefined
| Null
| Bool (b : bool)
| Number (z : Z)
| Str (s : string)
| Arr (items : list value)
| Obj (fields : list (string * value)).

(** Thrown values: [new Error(msg)], the [TypeError] raised when a
    property of [undefined] or [null] is read, and the rejection of an
    HTTP call by axios, which carries the error's [response] property
    ([undefined] when no response was received, otherwise an object
    with the response's [data]). *)
Inductive exn : Type :=
| Error (msg : string)
| TypeError
| AxiosError (response : value).

(** ToBoolean. *)
Definition truthy (v : value) : bool :=
  match v with
  | Undefined | Null => false
  | Bool b => b
  | Number z => negb (z =? 0)%Z
  | Str s => negb (s =? "")
  | Arr _ | Obj _ => true
  end.

(** [a || b] *)
Definition or (a b : value) : value := if truthy a then a else b.

(** [!a] *)
Definition not (a : value) : bool := negb (truthy a).

(** Own-property lookup in an object literal. *)
Fixpoint lookup (k : string) (fields : list (string * value)) : value :=
  match fields with
  | [] => Undefined
  | (k', v) :: rest => if k' =? k then v else lookup k rest
  end.

Definition nullish (v : value) : bool :=
  match v with
  | Undefined | Null => true
  | _ => false
  end.

(** [v.k] on a value that is not nullish, for a key [k] that is not a
    built-in property of primitives or arrays (such as [length]):
    objects are searched, everything else gives [undefined]. *)
Definition prop (v : value) (k : string) : value :=
  match v with
  | Obj fields => lookup k fields
  | _ => Undefined
  end.

(** [v.k]: reading a property of [undefined] or [null] throws. *)
Definition get (v : value) (k : string) : exn + value :=
  if nullish v then inl TypeError else inr (prop v k).

(** [v?.k] *)
Definition opt_get (v : value) (k : string) : value :=
  if nullish v then Undefined else prop v k.

(** [const { k1, k2: x } = v] *)
Definition destructure2 (v : value) (k1 k2 : string)
  : exn + (value * value) :=
  if nullish v then inl TypeError else inr (prop v k1, prop v k2).

(** [err.response] of a thrown value. *)
Definition response_of (e : exn) : value :=
  match e with
  | AxiosError response => response
  | _ => Undefined
  end.

(** ToString.  An array prints as its elements joined by commas, with
    [undefined] and [null] elements printed as the empty string. *)
Fixpoint to_string (v : value) : string :=
  match v with
  | Undefined => "undefined"
  | Null => "null"
  | Bool true => "true"
  | Bool false => "false"
  | Number z => NilZero.string_of_int (Z.to_int z)
  | Str s => s
  | Arr items =>
      (fix elems (l : list value) : string :=
         match l with
         | [] => ""
         | x :: rest =>
             let sx := if nullish x then "" else to_string x in
             match rest with
             | [] => sx
             | _ :: _ => sx ++ "," ++ elems rest
             end
         end) items
  | Obj _ => "[object Object]"
  end.

(** The string an array element contributes to [join]. *)
Definition join_elem (v : value) : string :=
  if nullish v then "" else to_string v.

(** [items.join(sep)] *)
Definition join (sep : string) (items : list value) : string :=
  String.concat sep (map join_elem items).

(** The one-character strings of a string, in order. *)
Fixpoint chars (s : string) : list value :=
  match s with
  | EmptyString => []
  | String c rest => Str (String c EmptyString) :: chars rest
  end.

(** [Object.values(v)]: throws on [undefined] and [null]; the field
    list of an [Obj] is taken to be in property-enumeration order. *)
Definition object_values (v : value) : exn + list value :=
  match v with
  | Undefined | Null => inl TypeError
  | Obj fields => inr (map snd fields)
  | Arr items => inr items
  | Str s => inr (chars s)
  | Bool _ | Number _ => inr []
  end.

(** [items.flat()]: one level of nested arrays is spliced in. *)
Definition flat (items : list value) : list value :=
  flat_map (fun v => match v with Arr inner => inner | _ => [v] end) items.

End Js.

(* ================================================================= *)
(** ** The world: token store and HTTP traffic *)

(** The persisted credential pair; [None] is an empty slot. *)
Record TokenStore : Type := mkStore {
  access_slot : option Js.value;
  refresh_slot : option Js.value
}.

Definition empty_store : TokenStore := mkStore None None.

Inductive http_method : Type := GET | POST.

(** A [File] picked in the browser. *)
Record File : Type := mkFile { file_name : string }.

(** The value of one [FormData] entry. *)
Inductive FormValue : Type :=
| FText (s : string)
| FFile (f : File).

(** What is sent as the body of a request. *)
Inductive Body : Type :=
| NoBody
| JsonBody (v : Js.value)
| FormBody (entries : list (string * FormValue)).

Record Request : Type := mkRequest {
  req_method : http_method;
  req_url : string;
  req_body : Body;
  req_headers : list (string * string)
}.

(** What [await api.post(...)] produces: a response whose [data] is the
    parsed body, or a rejection. *)
Inductive Reply : Type :=
| Resolved (data : Js.value)
| Rejected (e : Js.exn).

(** The backend and transport, as seen by one call. *)
Definition Backend : Type := Request -> Reply.

(** What the user interface and the console are told to do. *)
Inductive UiEvent : Type :=
| Snackbar (message : Js.value) (variant : string)
| InvalidateQueries (key : list string)
| Navigate (to : string)
| ConsoleErrorValue (label : string) (v : Js.value)
| ConsoleErrorExn (label : string) (e : Js.exn).

Record World : Type := mkWorld {
  store : TokenStore;
  requests : list Request;
  ui : list UiEvent
}.

Inductive Outcome (A : Type) : Type :=
| Returned (a : A)
| Thrown (e : Js.exn).
Arguments Returned {A} a.
Arguments Thrown {A} e.

(** Computations that read and write the world and may throw. *)
Definition M (A : Type) : Type := World -> Outcome A * World.

Definition ret {A} (a : A) : M A := fun w => (Returned a, w).

Definition throw {A} (e : Js.exn) : M A := fun w => (Thrown e, w).

Definition bind {A B} (m : M A) (k : A -> M B) : M B :=
  fun w =>
    match m w with
    | (Returned a, w') => k a w'
    | (Thrown e, w') => (Thrown e, w')
    end.

(** [try { body } catch (err) { handler }] *)
Definition try_catch {A} (body : M A) (handler : Js.exn -> M A) : M A :=
  fun w =>
    match body w with
    | (Returned a, w') => (Returned a, w')
    | (Thrown e, w') => handler e w'
    end.

(** Lifting of a pure step that may throw. *)
Definition lift {A} (r : Js.exn + A) : M A :=
  match r with
  | inl e => throw e
  | inr a => ret a
  end.

Declare Scope js_scope.
Delimit Scope js_scope with js.
Notation "x <- m ;; k" := (bind m (fun x => k))
  (at level 61, m at next level, right associativity) : js_scope.
Notation "m ;;; k" := (bind m (fun _ => k))
  (at level 61, right associativity) : js_scope.
Open Scope js_scope.

(* ================================================================= *)
(** ** authTokenStore *)

(** The argument object of [setTokens({ access, refresh })]. *)
Record Tokens : Type := mkTokens {
  access : Js.value;
  refresh : Js.value
}.

(** Modelled from the spec: the module [utils/authTokenStore] is imported
    by the sources but is not among them.  "[setTokens(access, refresh?)]
    stores a new access token; refresh is optional so a refresh-only
    renewal can leave the prior refresh token in place".  An omitted
    field of the argument object is [undefined]; no validation is done. *)
Definition setTokens_store (t : Tokens) (s : TokenStore) : TokenStore :=
  mkStore (Some (access t))
          (match refresh t with
           | Js.Undefined => refresh_slot s
           | r => Some r
           end).

(** Modelled from the spec: [authTokenStore.clearTokens] is missing;
    "removes both tokens". *)
Definition clearTokens_store (s : TokenStore) : TokenStore := empty_store.

(** Modelled from the spec: [authTokenStore.getAccessToken] is missing;
    "returns the currently stored access token, or an absence signal if
    none is stored" (here [null]). *)
Definition getAccessToken_store (s : TokenStore) : Js.value :=
  match access_slot s with
  | Some v => v
  | None => Js.Null
  end.

(** Modelled from the spec: [authTokenStore.getRefreshToken] is missing;
    "returns the currently stored refresh token, or an absence signal if
    none is stored" (here [null]). *)
Definition getRefreshToken_store (s : TokenStore) : Js.value :=
  match refresh_slot s with
  | Some v => v
  | None => Js.Null
  end.

Definition setTokens (t : Tokens) : M unit :=
  fun w =>
    (Returned tt, mkWorld (setTokens_store t (store w)) (requests w) (ui w)).

Definition clearTokens : M unit :=
  fun w =>
    (Returned tt, mkWorld (clearTokens_store (store w)) (requests w) (ui w)).

Definition getAccessToken : M Js.value :=
  fun w => (Returned (getAccessToken_store (store w)), w).

Definition getRefreshToken : M Js.value :=
  fun w => (Returned (getRefreshToken_store (store w)), w).

(* ================================================================= *)
(** ** axiosInstance *)

(** [await api.post(url, body, { headers })]: the request goes out, is
    recorded, and the backend's reply is either the response data or a
    thrown rejection. *)
Definition api_post (backend : Backend) (url : string) (body : Body)
    (headers : list (string * string)) : M Js.value :=
  fun w =>
    let rq := mkRequest POST url body headers in
    let w' := mkWorld (store w) (requests w ++ [rq]) (ui w) in
    match backend rq with
    | Resolved data => (Returned data, w')
    | Rejected e => (Thrown e, w')
    end.

(** One user-interface or console action. *)
Definition emit (ev : UiEvent) : M unit :=
  fun w => (Returned tt, mkWorld (store w) (requests w) (ui w ++ [ev])).

(* ================================================================= *)
(** ** refreshToken *)

Definition json_headers : list (string * string) :=
  [("Content-Type", "application/json")].

(** The request [refreshToken] sends for a refresh token [r]. *)
Definition refresh_request (r : Js.value) : Request :=
  mkRequest POST "/token/refresh/"
            (JsonBody (Js.Obj [("refresh", r)])) json_headers.

Definition refreshToken (backend : Backend) : M Js.value :=
  refresh_ <- getRefreshToken ;;
  if Js.not refresh_ then
    clearTokens ;;;
    throw (Js.Error "No refresh token found")
  else
    try_catch
      (data <- api_post backend "/token/refresh/"
                 (JsonBody (Js.Obj [("refresh", refresh_)])) json_headers ;;
       fields <- lift (Js.destructure2 data "access" "refresh") ;;
       let '(access_, newRefresh) := fields in
       if Js.truthy access_ then
         setTokens (mkTokens access_ (Js.or newRefresh refresh_)) ;;;
         ret access_
       else
         throw (Js.Error "Token refresh failed"))
      (fun err =>
         clearTokens ;;;
         throw err).

(** The operations of the token manager, and their effect on the world
    when run one after the other (a thrown error ends one operation, not
    the sequence). *)
Inductive Op : Type :=
| OpSetTokens (t : Tokens)
| OpClearTokens
| OpRefreshToken (backend : Backend).

Definition run_op (o : Op) (w : World) : World :=
  match o with
  | OpSetTokens t => snd (setTokens t w)
  | OpClearTokens => snd (clearTokens w)
  | OpRefreshToken backend => snd (refreshToken backend w)
  end.

Definition run_ops (ops : list Op) (w : World) : World :=
  fold_left (fun w o => run_op o w) ops w.

(** Both tokens present, or neither. *)
Definition paired (s : TokenStore) : bool :=
  match access_slot s, refresh_slot s with
  | Some _, Some _ => true
  | None, None => true
  | _, _ => false
  end.

(** The argument of a [setTokens] call carries a refresh token. *)
Definition gives_refresh (o : Op) : bool :=
  match o with
  | OpSetTokens t =>
      match refresh t with
      | Js.Undefined => false
      | _ => true
      end
  | _ => true
  end.

(** Every [setTokens] call of the sequence either carries a refresh
    token or is made while one is stored. *)
Fixpoint refresh_known (ops : list Op) (w : World) : bool :=
  match ops with
  | [] => true
  | o :: rest =>
      (gives_refresh o ||
       match refresh_slot (store w) with Some _ => true | None => false end)
      && refresh_known rest (run_op o w)
  end.

Definition initial_world : World := mkWorld empty_store [] [].

(* ================================================================= *)
(** ** React Query *)

(** [mutate(variables)] of [useMutation({ mutationFn, onSuccess,
    onError })]: the mutation function runs; when it resolves,
    [onSuccess] receives its result; an error thrown by either goes to
    [onError]; nothing is thrown to the caller of [mutate]. *)
Definition mutate {V A : Type}
    (mutationFn : V -> M A)
    (onSuccess : A -> M unit)
    (onError : Js.exn -> M unit)
    (variables : V) : M unit :=
  try_catch
    (data <- mutationFn variables ;;
     onSuccess data)
    (fun err => try_catch (onError err) (fun _ => ret tt)).

(* ================================================================= *)
(** ** GoogleSignIn.services *)

Definition loginAPI (backend : Backend) (access_token : Js.value)
  : M Js.value :=
  data <- api_post backend "/auth/google-login/"
            (JsonBody (Js.Obj [("access_token", access_token)])) [] ;;
  let user := Js.opt_get data "user" in
  let tokens := Js.opt_get data "tokens" in
  ret (Js.Obj
         [("message", Js.Str "Logged in successfully");
          ("tokens",
           Js.Obj [("access", Js.opt_get tokens "access");
                   ("refresh", Js.opt_get tokens "refresh")]);
          ("user",
           Js.Obj [("fullName", Js.or (Js.opt_get user "name") (Js.Str ""));
                   ("email", Js.or (Js.opt_get user "email") (Js.Str ""))])]).

(** The request [loginAPI] sends for the token Google handed over. *)
Definition google_request (token : Js.value) : Request :=
  mkRequest POST "/auth/google-login/"
            (JsonBody (Js.Obj [("access_token", token)])) [].

(** [onSuccess] of the mutation in [useGoogleSignIn]. *)
Definition googleSignIn_onSuccess (responseData : Js.value) : M unit :=
  fields <- lift (Js.destructure2 responseData "tokens" "message") ;;
  let '(tokens, message) := fields in
  setTokens (mkTokens (Js.opt_get tokens "access")
                      (Js.opt_get tokens "refresh")) ;;;
  emit (Snackbar (Js.or message (Js.Str "Logged in successfully!"))
                 "success") ;;;
  emit (InvalidateQueries ["userData"]) ;;;
  emit (Navigate "/").

(** [onError] of the mutation in [useGoogleSignIn]. *)
Definition googleSignIn_onError (error : Js.exn) : M unit :=
  emit (ConsoleErrorValue "Login error:"
          (Js.opt_get (Js.response_of error) "data")) ;;;
  let errorMessage :=
    Js.or (Js.opt_get (Js.opt_get (Js.response_of error) "data") "error")
          (Js.Str "Something went wrong") in
  emit (Snackbar errorMessage "error").

(** What [useGoogleLogin]'s [onSuccess] starts: the login mutation with
    the access token Google handed over. *)
Definition googleLogin_onSuccess (backend : Backend)
    (tokenResponse : Js.value) : M unit :=
  access_token <- lift (Js.get tokenResponse "access_token") ;;
  mutate (loginAPI backend) googleSignIn_onSuccess googleSignIn_onError
         access_token.

(* ================================================================= *)
(** ** ToggleSaveProperty.services *)

Definition toggleSave_url (propertyId : Js.value) : string :=
  "/auth/property/" ++ Js.to_string propertyId ++ "/toggle-save/".

Definition toggleSaveAPI (backend : Backend) (propertyId : Js.value)
  : M Js.value :=
  api_post backend (toggleSave_url propertyId) NoBody [].

Definition toggleSave_onSuccess (data : Js.value) : M unit :=
  message <- lift (Js.get data "message") ;;
  emit (Snackbar message "success") ;;;
  emit (InvalidateQueries ["savedProperties"]).

Definition toggleSave_onError (err : Js.exn) : M unit :=
  emit (Snackbar
          (Js.or (Js.opt_get (Js.opt_get (Js.response_of err) "data")
                             "detail")
                 (Js.Str "Failed to toggle save."))
          "error").

Definition toggleSave (backend : Backend) (propertyId : Js.value) : M unit :=
  mutate (toggleSaveAPI backend) toggleSave_onSuccess toggleSave_onError
         propertyId.

(* ================================================================= *)
(** ** CreateProperty.services *)

Definition createPropertyAPI (backend : Backend)
    (propertyData : list (string * FormValue)) : M Js.value :=
  try_catch
    (api_post backend "/auth/property/create/" (FormBody propertyData)
              [("Content-Type", "multipart/form-data")])
    (fun error =>
       emit (ConsoleErrorExn "API Error:" error) ;;;
       throw error).

Definition createProperty_onSuccess (_ : Js.value) : M unit :=
  emit (Snackbar (Js.Str "Property created successfully!") "success") ;;;
  emit (InvalidateQueries ["userProperties"]) ;;;
  emit (InvalidateQueries ["allProperties"]).

Definition createProperty_fallback : Js.value :=
  Js.Str "Failed to create property. Please try again.".

(** The [errMsg] of [onError]:
    [err?.response?.data?.detail
     || (err?.response?.data
         && Object.values(err.response.data).flat().join(" "))
     || "Failed to create property. Please try again."],
    with the operands evaluated only when JavaScript evaluates them. *)
Definition createProperty_errMsg (err : Js.exn) : Js.exn + Js.value :=
  let data := Js.opt_get (Js.response_of err) "data" in
  let detail := Js.opt_get data "detail" in
  let first_two : Js.exn + Js.value :=
    if Js.truthy detail then inr detail
    else if Js.truthy data then
      match Js.get (Js.response_of err) "data" with
      | inl e => inl e
      | inr d =>
          match Js.object_values d with
          | inl e => inl e
          | inr vs => inr (Js.Str (Js.join " " (Js.flat vs)))
          end
      end
    else inr data in
  match first_two with
  | inl e => inl e
  | inr v => inr (Js.or v createProperty_fallback)
  end.

Definition createProperty_onError (err : Js.exn) : M unit :=
  errMsg <- lift (createProperty_errMsg err) ;;
  emit (Snackbar errMsg "error") ;;;
  emit (ConsoleErrorExn "Error creating property:" err).

Definition createProperty (backend : Backend)
    (formPayload : list (string * FormValue)) : M unit :=
  mutate (createPropertyAPI backend) createProperty_onSuccess
         createProperty_onError formPayload.

(* ================================================================= *)
(** ** ListPropertyPage *)

(** One entry of [formData.images]. *)
Record ImgObj : Type := mkImgObj { file : File }.

Record FormDataState : Type := mkFormData {
  title : string;
  location : string;
  price : string;
  type_ : string;
  furnished : string;
  property_type : string;
  bedrooms : string;
  bathrooms : string;
  area : string;
  description : string;
  contact_name : string;
  contact_phone : string;
  contact_email : string;
  images : list ImgObj
}.

Definition initialFormData : FormDataState :=
  mkFormData "" "" "" "Buy" "Furnished" "Flat" "" "" "" "" "" "" "" [].

(** The [FormData] that [handleSubmit] builds and hands to
    [createProperty]. *)
Definition handleSubmit_payload (formData : FormDataState)
  : list (string * FormValue) :=
  [("title", FText (title formData));
   ("location", FText (location formData));
   ("price", FText (price formData));
   ("type", FText (type_ formData));
   ("property_type", FText (property_type formData));
   ("furnished", FText (furnished formData));
   ("bedrooms", FText (bedrooms formData));
   ("bathrooms", FText (bathrooms formData));
   ("area", FText (area formData));
   ("description", FText (description formData));
   ("contact_name", FText (contact_name formData));
   ("contact_phone", FText (contact_phone formData));
   ("contact_email", FText (contact_email formData))]
  ++ map (fun imgObj => ("images", FFile (file imgObj))) (images formData).

(** The files of a payload, in order. *)
Fixpoint payload_files (entries : list (string * FormValue)) : list File :=
  match entries with
  | [] => []
  | (_, FFile f) :: rest => f :: payload_files rest
  | (_, FText _) :: rest => payload_files rest
  end.

(** The value the mount effect passes to [setIsLoggedIn]:
    [!!getAccessToken()]. *)
Definition ListPropertyPage_loggedIn : M bool :=
  token <- getAccessToken ;;
  ret (negb (Js.not token)).

(** The state of the mutation behind [useCreateProperty], from which
    [isCreating], [isCreated] and [isCreateError] are read. *)
Inductive MutationStatus : Type :=
| Idle
| Loading
| Succeeded
| Failed.

(** The state hooks of the page and the status of its mutation. *)
Record PageState : Type := mkPage {
  formData : FormDataState;
  showPreview : bool;
  isLoggedIn : bool;
  isSubmitting : bool;
  status : MutationStatus
}.

Definition isCreating (p : PageState) : bool :=
  match status p with Loading => true | _ => false end.

Definition isCreated (p : PageState) : bool :=
  match status p with Succeeded => true | _ => false end.

Definition isCreateError (p : PageState) : bool :=
  match status p with Failed => true | _ => false end.

(** What the page returns from its render. *)
Inductive Screen : Type :=
| LoginPrompt
| SubmittingLoader
| ListingForm (successModal errorAlert preview : bool).

Definition render (p : PageState) : Screen :=
  if negb (isLoggedIn p) then LoginPrompt
  else if isCreating p || isSubmitting p then SubmittingLoader
  else ListingForm (isCreated p) (isCreateError p) (showPreview p).

(** The page after its mount effect has read the token store. *)
Definition mounted (token : Js.value) : PageState :=
  mkPage initialFormData false (negb (Js.not token)) false Idle.

(** What can happen to a mounted page. *)
Inductive PageEvent : Type :=
| EditForm (fd : FormDataState)
| SetPreview (b : bool)
| Submit
| Settled (ok : bool)
| CloseSuccessModal.

(** The controls of the form, and with them [handleSubmit], exist only
    on the listing form; the success modal only while [isCreated]; the
    mutation settles only while it is running.  An event that cannot
    happen leaves the page as it is. *)
Definition step (p : PageState) (ev : PageEvent) : PageState :=
  match ev, render p with
  | EditForm fd, ListingForm _ _ _ =>
      mkPage fd (showPreview p) (isLoggedIn p) (isSubmitting p) (status p)
  | SetPreview b, ListingForm _ _ _ =>
      mkPage (formData p) b (isLoggedIn p) (isSubmitting p) (status p)
  | Submit, ListingForm _ _ _ =>
      (* handleSubmit: setIsSubmitting(true); createProperty(formPayload) *)
      mkPage (formData p) (showPreview p) (isLoggedIn p) true Loading
  | CloseSuccessModal, ListingForm true _ _ =>
      (* resetCreate() *)
      mkPage (formData p) (showPreview p) (isLoggedIn p) (isSubmitting p) Idle
  | Settled true, _ =>
      if isCreating p then
        (* isCreated turns true and its effect runs *)
        mkPage initialFormData false (isLoggedIn p) false Succeeded
      else p
  | Settled false, _ =>
      if isCreating p then
        mkPage (formData p) (showPreview p) (isLoggedIn p) (isSubmitting p)
               Failed
      else p
  | _, _ => p
  end.

Definition run_page (evs : list PageEvent) (p : PageState) : PageState :=
  fold_left step evs p.

(** While the mutation is running or has failed, [isSubmitting] is
    set. *)
Definition submitting_while_unsettled (p : PageState) : Prop :=
  match status p with
  | Loading | Failed => isSubmitting p = true
  | Idle | Succeeded => True
  end.

(* ================================================================= *)
(** ** Properties of refreshToken *)

Section RefreshToken.

Variable backend : Backend.
Variables (s : TokenStore) (log : list Request) (u : list UiEvent).

Let r : Js.value := getRefreshToken_store s.
Let sent : list Request := (log ++ [refresh_request r])%list.

(** A truthy value is never [undefined], so [setTokens] stores it. *)
Lemma setTokens_store_truthy (a v : Js.value) (s0 : TokenStore) :
  Js.truthy v = true ->
  setTokens_store (mkTokens a v) s0 = mkStore (Some a) (Some v).
Proof.
  intros Hv. unfold setTokens_store. simpl.
  destruct v; try reflexivity. discriminate Hv.
Qed.

Lemma or_truthy_r (a b : Js.value) :
  Js.truthy b = true -> Js.truthy (Js.or a b) = true.
Proof.
  intros Hb. unfold Js.or. destruct (Js.truthy a) eqn:Ha; assumption.
Qed.

(** No usable refresh token: nothing is sent. *)
Lemma refreshToken_no_refresh :
  Js.truthy r = false ->
  refreshToken backend (mkWorld s log u)
  = (Thrown (Js.Error "No refresh token found"), mkWorld empty_store log u).
Proof.
  intros Hr. unfold refreshToken, bind, getRefreshToken, Js.not. simpl.
  fold r. rewrite Hr. reflexivity.
Qed.

(** The transport rejects the call. *)
Lemma refreshToken_rejected (e : Js.exn) :
  Js.truthy r = true ->
  backend (refresh_request r) = Rejected e ->
  refreshToken backend (mkWorld s log u)
  = (Thrown e, mkWorld empty_store sent u).
Proof.
  intros Hr Hb.
  unfold refreshToken, bind, getRefreshToken, Js.not, try_catch, api_post.
  simpl. fold r. rewrite Hr. simpl.
  change (mkRequest POST "/token/refresh/"
            (JsonBody (Js.Obj [("refresh", r)])) json_headers)
    with (refresh_request r).
  rewrite Hb. reflexivity.
Qed.

(** The body of the response is [undefined] or [null]. *)
Lemma refreshToken_nullish_body (data : Js.value) :
  Js.truthy r = true ->
  backend (refresh_request r) = Resolved data ->
  Js.nullish data = true ->
  refreshToken backend (mkWorld s log u)
  = (Thrown Js.TypeError, mkWorld empty_store sent u).
Proof.
  intros Hr Hb Hn.
  unfold refreshToken, bind, getRefreshToken, Js.not, try_catch, api_post.
  simpl. fold r. rewrite Hr. simpl.
  change (mkRequest POST "/token/refresh/"
            (JsonBody (Js.Obj [("refresh", r)])) json_headers)
    with (refresh_request r).
  rewrite Hb. unfold Js.destructure2. rewrite Hn. reflexivity.
Qed.

(** The response has no truthy [access]. *)
Lemma refreshToken_falsy_access (data : Js.value) :
  Js.truthy r = true ->
  backend (refresh_request r) = Resolved data ->
  Js.nullish data = false ->
  Js.truthy (Js.prop data "access") = false ->
  refreshToken backend (mkWorld s log u)
  = (Thrown (Js.Error "Token refresh failed"), mkWorld empty_store sent u).
Proof.
  intros Hr Hb Hn Ha.
  unfold refreshToken, bind, getRefreshToken, Js.not, try_catch, api_post.
  simpl. fold r. rewrite Hr. simpl.
  change (mkRequest POST "/token/refresh/"
            (JsonBody (Js.Obj [("refresh", r)])) json_headers)
    with (refresh_request r).
  rewrite Hb. unfold Js.destructure2. rewrite Hn. simpl. rewrite Ha.
  reflexivity.
Qed.

(** The response has a truthy [access]. *)
Lemma refreshToken_renewed (data : Js.value) :
  Js.truthy r = true ->
  backend (refresh_request r) = Resolved data ->
  Js.nullish data = false ->
  Js.truthy (Js.prop data "access") = true ->
  refreshToken backend (mkWorld s log u)
  = (Returned (Js.prop data "access"),
     mkWorld (mkStore (Some (Js.prop data "access"))
                      (Some (Js.or (Js.prop data "refresh") r)))
             sent u).
Proof.
  intros Hr Hb Hn Ha.
  unfold refreshToken, bind, getRefreshToken, Js.not, try_catch, api_post.
  simpl. fold r. rewrite Hr. simpl.
  change (mkRequest POST "/token/refresh/"
            (JsonBody (Js.Obj [("refresh", r)])) json_headers)
    with (refresh_request r).
  rewrite Hb. unfold Js.destructure2. rewrite Hn. simpl. rewrite Ha.
  unfold setTokens, ret. simpl.
  rewrite setTokens_store_truthy by (apply or_truthy_r; exact Hr).
  reflexivity.
Qed.

End RefreshToken.

Lemma truthy_Str (x : string) : x <> "" -> Js.truthy (Js.Str x) = true.
Proof.
  intros Hx. simpl. destruct (String.eqb_spec x ""); [contradiction | reflexivity].
Qed.

(** Whatever the store and the backend, [refreshToken] ends in one of
    two shapes: it returns the truthy access token it has just stored
    next to a truthy refresh token, or it throws over an empty store. *)
Lemma refreshToken_shape (backend : Backend) (w : World) :
  (exists a rt,
      Js.truthy a = true /\ Js.truthy rt = true /\
      fst (refreshToken backend w) = Returned a /\
      store (snd (refreshToken backend w)) = mkStore (Some a) (Some rt))
  \/
  (exists e,
      fst (refreshToken backend w) = Thrown e /\
      store (snd (refreshToken backend w)) = empty_store).
Proof.
  destruct w as [s log u].
  destruct (Js.truthy (getRefreshToken_store s)) eqn:Hr.
  - destruct (backend (refresh_request (getRefreshToken_store s)))
      as [data | e] eqn:Hb.
    + destruct (Js.nullish data) eqn:Hn.
      * right. exists Js.TypeError.
        rewrite (refreshToken_nullish_body backend s log u data Hr Hb Hn).
        split; reflexivity.
      * destruct (Js.truthy (Js.prop data "access")) eqn:Ha.
        -- left. exists (Js.prop data "access").
           exists (Js.or (Js.prop data "refresh") (getRefreshToken_store s)).
           rewrite (refreshToken_renewed backend s log u data Hr Hb Hn Ha).
           repeat split; try assumption. apply or_truthy_r, Hr.
        -- right. exists (Js.Error "Token refresh failed").
           rewrite (refreshToken_falsy_access backend s log u data Hr Hb Hn Ha).
           split; reflexivity.
    + right. exists e.
      rewrite (refreshToken_rejected backend s log u e Hr Hb).
      split; reflexivity.
  - right. exists (Js.Error "No refresh token found").
    rewrite (refreshToken_no_refresh backend s log u Hr).
    split; reflexivity.
Qed.

Lemma refreshToken_paired (backend : Backend) (w : World) :
  paired (store (snd (refreshToken backend w))) = true.
Proof.
  destruct (refreshToken_shape backend w)
    as [(a & rt & _ & _ & _ & Hs) | (e & _ & Hs)];
    rewrite Hs; reflexivity.
Qed.

(** With a truthy refresh token stored, the request log grows by the
    renewal request and by nothing else. *)
Lemma refreshToken_sends_one_request_gen
    (backend : Backend) (s : TokenStore)
    (log : list Request) (u : list UiEvent) :
  Js.truthy (getRefreshToken_store s) = true ->
  requests (snd (refreshToken backend (mkWorld s log u)))
  = (log ++ [refresh_request (getRefreshToken_store s)])%list.
Proof.
  intros Hr.
  destruct (backend (refresh_request (getRefreshToken_store s)))
    as [data | e] eqn:Hb.
  - destruct (Js.nullish data) eqn:Hn.
    + rewrite (refreshToken_nullish_body backend s log u data Hr Hb Hn).
      reflexivity.
    + destruct (Js.truthy (Js.prop data "access")) eqn:Ha.
      * rewrite (refreshToken_renewed backend s log u data Hr Hb Hn Ha).
        reflexivity.
      * rewrite (refreshToken_falsy_access backend s log u data Hr Hb Hn Ha).
        reflexivity.
  - rewrite (refreshToken_rejected backend s log u e Hr Hb). reflexivity.
Qed.

(* ----------------------------------------------------------------- *)
(** *** Renewal that succeeds *)

(** C1 (as the code has it): from a stored pair [(a0, r0)] with a
    non-empty [r0], a response [{access: a1}] with a non-empty [a1]
    leaves [(a1, r0)]; a response [{access: a1, refresh: r1}] leaves
    [(a1, r1)] when [r1] is non-empty, and [(a1, r0)] when [r1] is the
    empty string. *)
Theorem refreshToken_stores_renewed_pair
    (a0 r0 a1 : string) (log : list Request) (u : list UiEvent)
    (backend : Backend) :
  r0 <> "" -> a1 <> "" ->
  let w := mkWorld (mkStore (Some (Js.Str a0)) (Some (Js.Str r0))) log u in
  (backend (refresh_request (Js.Str r0))
     = Resolved (Js.Obj [("access", Js.Str a1)]) ->
   store (snd (refreshToken backend w))
     = mkStore (Some (Js.Str a1)) (Some (Js.Str r0)))
  /\
  (forall r1, r1 <> "" ->
   backend (refresh_request (Js.Str r0))
     = Resolved (Js.Obj [("access", Js.Str a1); ("refresh", Js.Str r1)]) ->
   store (snd (refreshToken backend w))
     = mkStore (Some (Js.Str a1)) (Some (Js.Str r1)))
  /\
  (backend (refresh_request (Js.Str r0))
     = Resolved (Js.Obj [("access", Js.Str a1); ("refresh", Js.Str "")]) ->
   store (snd (refreshToken backend w))
     = mkStore (Some (Js.Str a1)) (Some (Js.Str r0))).
Proof.
  intros Hr0 Ha1 w.
  pose proof (truthy_Str r0 Hr0) as Tr.
  pose proof (truthy_Str a1 Ha1) as Ta.
  split; [| split].
  - intros Hb. unfold w.
    rewrite (refreshToken_renewed backend
               (mkStore (Some (Js.Str a0)) (Some (Js.Str r0)))
               log u _ Tr Hb eq_refl Ta).
    reflexivity.
  - intros r1 Hr1 Hb. unfold w.
    rewrite (refreshToken_renewed backend
               (mkStore (Some (Js.Str a0)) (Some (Js.Str r0)))
               log u _ Tr Hb eq_refl Ta).
    simpl. unfold Js.or. simpl.
    destruct (String.eqb_spec r1 ""); [contradiction | reflexivity].
  - intros Hb. unfold w.
    rewrite (refreshToken_renewed backend
               (mkStore (Some (Js.Str a0)) (Some (Js.Str r0)))
               log u _ Tr Hb eq_refl Ta).
    reflexivity.
Qed.

Lemma refreshToken_stores_renewed_pair_witness :
  store (snd (refreshToken
                (fun _ => Resolved (Js.Obj [("access", Js.Str "a1");
                                            ("refresh", Js.Str "r1")]))
                (mkWorld (mkStore (Some (Js.Str "a0")) (Some (Js.Str "r0")))
                         [] [])))
  = mkStore (Some (Js.Str "a1")) (Some (Js.Str "r1")).
Proof.
  refine (proj1 (proj2 (refreshToken_stores_renewed_pair
                          "a0" "r0" "a1" [] [] _ _ _)) "r1" _ _).
  - discriminate.
  - discriminate.
  - discriminate.
  - reflexivity.
Defined.

(** C1 as stated fails on empty strings: a response with an empty
    [refresh] does not store it, and a response with an empty [access]
    stores nothing at all. *)
Lemma refreshToken_empty_strings_counterexample :
  let w := mkWorld (mkStore (Some (Js.Str "a0")) (Some (Js.Str "r0"))) [] [] in
  let rotated := fun _ : Request =>
    Resolved (Js.Obj [("access", Js.Str "a1"); ("refresh", Js.Str "")]) in
  let blank := fun _ : Request =>
    Resolved (Js.Obj [("access", Js.Str "")]) in
  store (snd (refreshToken rotated w))
    <> mkStore (Some (Js.Str "a1")) (Some (Js.Str ""))
  /\ store (snd (refreshToken blank w))
    <> mkStore (Some (Js.Str "")) (Some (Js.Str "r0")).
Proof.
  split; vm_compute; discriminate.
Qed.

(* ----------------------------------------------------------------- *)
(** *** Renewal that fails *)

(** C2: with no refresh token stored, [refreshToken] throws the
    "No refresh token found" error, sends nothing (the request log is
    unchanged) and leaves the store empty, whatever access token was
    stored. *)
Theorem refreshToken_without_refresh_token
    (backend : Backend) (a : option Js.value)
    (log : list Request) (u : list UiEvent) :
  refreshToken backend (mkWorld (mkStore a None) log u)
  = (Thrown (Js.Error "No refresh token found"), mkWorld empty_store log u).
Proof.
  apply (refreshToken_no_refresh backend (mkStore a None) log u).
  reflexivity.
Qed.

(** C3: if the call to the renewal endpoint is rejected with [e], the
    store ends empty whatever it held; and when a refresh token was
    stored, so that the call is made, [refreshToken] throws that same
    [e] after its single request. *)
Theorem refreshToken_rejected_clears_and_rethrows
    (backend : Backend) (s : TokenStore)
    (log : list Request) (u : list UiEvent) (e : Js.exn) :
  backend (refresh_request (getRefreshToken_store s)) = Rejected e ->
  store (snd (refreshToken backend (mkWorld s log u))) = empty_store
  /\ (Js.truthy (getRefreshToken_store s) = true ->
      refreshToken backend (mkWorld s log u)
      = (Thrown e,
         mkWorld empty_store
                 (log ++ [refresh_request (getRefreshToken_store s)]) u)).
Proof.
  intros Hb. split.
  - destruct (Js.truthy (getRefreshToken_store s)) eqn:Hr.
    + rewrite (refreshToken_rejected backend s log u e Hr Hb). reflexivity.
    + rewrite (refreshToken_no_refresh backend s log u Hr). reflexivity.
  - intros Hr. exact (refreshToken_rejected backend s log u e Hr Hb).
Qed.

Lemma refreshToken_rejected_clears_and_rethrows_witness :
  refreshToken (fun _ => Rejected (Js.AxiosError
                                     (Js.Obj [("status", Js.Number 401)])))
               (mkWorld (mkStore (Some (Js.Str "a0")) (Some (Js.Str "r0")))
                        [] [])
  = (Thrown (Js.AxiosError (Js.Obj [("status", Js.Number 401)])),
     mkWorld empty_store [refresh_request (Js.Str "r0")] []).
Proof.
  refine (proj2 (refreshToken_rejected_clears_and_rethrows
                   _ (mkStore (Some (Js.Str "a0")) (Some (Js.Str "r0")))
                   [] [] _ _) _).
  - reflexivity.
  - reflexivity.
Defined.

(** C4 (as the code has it): when a refresh token is stored and the
    renewal endpoint responds successfully without a usable access
    token (the body is [null] or [undefined], or its [access] field is
    missing, [null], the empty string or otherwise falsy),
    [refreshToken] throws after its single request and leaves the store
    empty; when the body is anything but [null] or [undefined], the
    error thrown is "Token refresh failed". *)
Theorem refreshToken_no_access_token_fails
    (backend : Backend) (s : TokenStore)
    (log : list Request) (u : list UiEvent) (data : Js.value) :
  Js.truthy (getRefreshToken_store s) = true ->
  backend (refresh_request (getRefreshToken_store s)) = Resolved data ->
  Js.truthy (Js.opt_get data "access") = false ->
  exists e,
    refreshToken backend (mkWorld s log u)
    = (Thrown e,
       mkWorld empty_store
               (log ++ [refresh_request (getRefreshToken_store s)]) u)
    /\ (Js.nullish data = false -> e = Js.Error "Token refresh failed").
Proof.
  intros Hr Hb Ha. unfold Js.opt_get in Ha.
  destruct (Js.nullish data) eqn:Hn.
  - exists Js.TypeError. split; [| discriminate].
    exact (refreshToken_nullish_body backend s log u data Hr Hb Hn).
  - exists (Js.Error "Token refresh failed"). split; [| reflexivity].
    exact (refreshToken_falsy_access backend s log u data Hr Hb Hn Ha).
Qed.

Lemma refreshToken_no_access_token_fails_witness :
  exists e,
    refreshToken (fun _ => Resolved (Js.Obj [("access", Js.Null)]))
                 (mkWorld (mkStore (Some (Js.Str "a0")) (Some (Js.Str "r0")))
                          [] [])
    = (Thrown e, mkWorld empty_store [refresh_request (Js.Str "r0")] [])
    /\ (Js.nullish (Js.Obj [("access", Js.Null)]) = false ->
        e = Js.Error "Token refresh failed").
Proof.
  refine (refreshToken_no_access_token_fails
            _ (mkStore (Some (Js.Str "a0")) (Some (Js.Str "r0")))
            [] [] (Js.Obj [("access", Js.Null)]) _ _ _).
  - reflexivity.
  - reflexivity.
  - reflexivity.
Defined.

(** C4 as stated fails on the kind of error: a successful response whose
    body is [null] contains no access token, and [refreshToken] then
    throws the [TypeError] of reading that body, not "Token refresh
    failed". *)
Lemma refreshToken_null_response_counterexample :
  let w := mkWorld (mkStore (Some (Js.Str "a0")) (Some (Js.Str "r0"))) [] [] in
  fst (refreshToken (fun _ => Resolved Js.Null) w) = Thrown Js.TypeError
  /\ fst (refreshToken (fun _ => Resolved Js.Null) w)
     <> Thrown (Js.Error "Token refresh failed").
Proof.
  split; [reflexivity | vm_compute; discriminate].
Qed.

(** C9: presence of the new access token is decided by truthiness: a
    successful response whose [access] field is the empty string makes
    [refreshToken] throw "Token refresh failed" over an empty store. *)
Theorem refreshToken_empty_access_fails
    (backend : Backend) (s : TokenStore)
    (log : list Request) (u : list UiEvent) (data : Js.value) :
  Js.truthy (getRefreshToken_store s) = true ->
  backend (refresh_request (getRefreshToken_store s)) = Resolved data ->
  Js.prop data "access" = Js.Str "" ->
  refreshToken backend (mkWorld s log u)
  = (Thrown (Js.Error "Token refresh failed"),
     mkWorld empty_store
             (log ++ [refresh_request (getRefreshToken_store s)]) u).
Proof.
  intros Hr Hb Hp.
  apply (refreshToken_falsy_access backend s log u data Hr Hb).
  - destruct data; try reflexivity; discriminate Hp.
  - rewrite Hp. reflexivity.
Qed.

Lemma refreshToken_empty_access_fails_witness :
  refreshToken (fun _ => Resolved (Js.Obj [("access", Js.Str "");
                                           ("refresh", Js.Str "r1")]))
               (mkWorld (mkStore (Some (Js.Str "a0")) (Some (Js.Str "r0")))
                        [] [])
  = (Thrown (Js.Error "Token refresh failed"),
     mkWorld empty_store [refresh_request (Js.Str "r0")] []).
Proof.
  refine (refreshToken_empty_access_fails
            _ (mkStore (Some (Js.Str "a0")) (Some (Js.Str "r0")))
            [] [] _ _ _ _).
  - reflexivity.
  - reflexivity.
  - reflexivity.
Defined.

(* ----------------------------------------------------------------- *)
(** *** What goes over the wire, and what comes back *)

(** C6 (as the code has it): an invocation with a stored refresh token
    [r] that is truthy (a non-empty string) adds exactly one request to
    the log, a POST to "/token/refresh/" with body [{ refresh: r }],
    whatever the backend answers; an invocation with no refresh token
    stored, or with the empty string stored, adds none.  No invocation
    sends a second request. *)
Theorem refreshToken_sends_one_request
    (backend : Backend) (s : TokenStore)
    (log : list Request) (u : list UiEvent) :
  requests (snd (refreshToken backend (mkWorld s log u)))
  = if Js.truthy (getRefreshToken_store s)
    then (log ++ [mkRequest POST "/token/refresh/"
                    (JsonBody (Js.Obj [("refresh", getRefreshToken_store s)]))
                    [("Content-Type", "application/json")]])%list
    else log.
Proof.
  destruct (Js.truthy (getRefreshToken_store s)) eqn:Hr.
  - exact (refreshToken_sends_one_request_gen backend s log u Hr).
  - rewrite (refreshToken_no_refresh backend s log u Hr). reflexivity.
Qed.

(** C6 as stated fails on the empty string: with [""] stored as refresh
    token, no request is sent at all. *)
Lemma refreshToken_blank_token_counterexample :
  let w := mkWorld (mkStore (Some (Js.Str "a0")) (Some (Js.Str ""))) [] [] in
  let backend := fun _ : Request =>
    Resolved (Js.Obj [("access", Js.Str "a1")]) in
  requests (snd (refreshToken backend w)) = []
  /\ requests (snd (refreshToken backend w)) <> [refresh_request (Js.Str "")].
Proof.
  split; [reflexivity | vm_compute; discriminate].
Qed.

(** C10: on a response with a truthy [access], [refreshToken] returns
    that value, and the world it returns in already holds it as the
    stored access token. *)
Theorem refreshToken_returns_new_access
    (backend : Backend) (s : TokenStore)
    (log : list Request) (u : list UiEvent) (data a : Js.value) :
  Js.truthy (getRefreshToken_store s) = true ->
  backend (refresh_request (getRefreshToken_store s)) = Resolved data ->
  Js.get data "access" = inr a ->
  Js.truthy a = true ->
  fst (refreshToken backend (mkWorld s log u)) = Returned a
  /\ getAccessToken_store (store (snd (refreshToken backend (mkWorld s log u))))
     = a.
Proof.
  intros Hr Hb Hg Ha. unfold Js.get in Hg.
  destruct (Js.nullish data) eqn:Hn; [discriminate Hg |].
  injection Hg as Hp. subst a.
  rewrite (refreshToken_renewed backend s log u data Hr Hb Hn Ha).
  split; reflexivity.
Qed.

Lemma refreshToken_returns_new_access_witness :
  fst (refreshToken
         (fun _ => Resolved (Js.Obj [("access", Js.Str "a1")]))
         (mkWorld (mkStore (Some (Js.Str "a0")) (Some (Js.Str "r0"))) [] []))
  = Returned (Js.Str "a1").
Proof.
  refine (proj1 (refreshToken_returns_new_access
                   _ (mkStore (Some (Js.Str "a0")) (Some (Js.Str "r0")))
                   [] [] _ _ _ _ _ _)).
  - reflexivity.
  - reflexivity.
  - reflexivity.
  - reflexivity.
Defined.

(* ================================================================= *)
(** ** Properties of the token store *)

(** C8: right after [setTokens({access: a, refresh: r})] the two
    getters return [a] and [r]. *)
Theorem setTokens_round_trip (a r : string) (w : World) :
  fst ((setTokens (mkTokens (Js.Str a) (Js.Str r)) ;;;
        got_access <- getAccessToken ;;
        got_refresh <- getRefreshToken ;;
        ret (got_access, got_refresh)) w)
  = Returned (Js.Str a, Js.Str r).
Proof. reflexivity. Qed.

(** C7: [setTokens({access: a1, refresh: r1})] followed by
    [setTokens({access: a2})] leaves [a2] as access token and still
    [r1] as refresh token. *)
Theorem setTokens_access_only_keeps_refresh (a1 r1 a2 : string) (w : World) :
  fst ((setTokens (mkTokens (Js.Str a1) (Js.Str r1)) ;;;
        setTokens (mkTokens (Js.Str a2) Js.Undefined) ;;;
        got_access <- getAccessToken ;;
        got_refresh <- getRefreshToken ;;
        ret (got_access, got_refresh)) w)
  = Returned (Js.Str a2, Js.Str r1).
Proof. reflexivity. Qed.

Lemma run_op_paired (o : Op) (w : World) :
  paired (store w) = true ->
  (gives_refresh o ||
   match refresh_slot (store w) with Some _ => true | None => false end)
  = true ->
  paired (store (run_op o w)) = true.
Proof.
  destruct o as [t | | backend]; intros Hp Hg; simpl.
  - unfold setTokens_store, paired. simpl.
    simpl in Hg. destruct (refresh t); try reflexivity.
    simpl in Hg. destruct (refresh_slot (store w)); [reflexivity | discriminate Hg].
  - reflexivity.
  - apply refreshToken_paired.
Qed.

Lemma run_ops_paired (ops : list Op) :
  forall w,
    paired (store w) = true ->
    refresh_known ops w = true ->
    paired (store (run_ops ops w)) = true.
Proof.
  induction ops as [| o rest IH]; intros w Hp Hk.
  - exact Hp.
  - simpl in Hk. apply andb_prop in Hk as [Ho Hrest].
    change (run_ops (o :: rest) w) with (run_ops rest (run_op o w)).
    apply IH; [apply run_op_paired; assumption | exact Hrest].
Qed.

(** C5 (as the code has it): starting from the empty store, after any
    sequence of [setTokens], [clearTokens] and [refreshToken] calls in
    which every [setTokens] either carries a refresh token or is made
    while one is stored, both tokens are stored or neither is. *)
Theorem tokens_stay_paired (ops : list Op) :
  refresh_known ops initial_world = true ->
  paired (store (run_ops ops initial_world)) = true.
Proof.
  intros Hk. apply run_ops_paired; [reflexivity | exact Hk].
Qed.

Lemma tokens_stay_paired_witness :
  paired (store (run_ops
                   [OpSetTokens (mkTokens (Js.Str "a0") (Js.Str "r0"));
                    OpSetTokens (mkTokens (Js.Str "a1") Js.Undefined);
                    OpRefreshToken
                      (fun _ => Resolved (Js.Obj [("access", Js.Str "a2")]));
                    OpClearTokens;
                    OpRefreshToken (fun _ => Rejected Js.TypeError)]
                   initial_world))
  = true.
Proof.
  refine (tokens_stay_paired _ _). reflexivity.
Defined.

(** C5 as stated fails: one [setTokens] call without a refresh token on
    the empty store leaves an access token and no refresh token. *)
Lemma tokens_unpaired_counterexample :
  store (run_ops [OpSetTokens (mkTokens (Js.Str "a") Js.Undefined)]
                 initial_world)
  = mkStore (Some (Js.Str "a")) None
  /\ paired (store (run_ops [OpSetTokens (mkTokens (Js.Str "a") Js.Undefined)]
                            initial_world))
     = false.
Proof. split; reflexivity. Qed.

(* ================================================================= *)
(** ** Further properties of refreshToken *)

(** X1: Fail-closed, in general: for every store and every backend, a call
    that throws leaves the store empty, and a call that returns has
    stored the returned access token, truthy, next to a truthy refresh
    token. *)
Theorem refreshToken_fail_closed (backend : Backend) (w : World) :
  match fst (refreshToken backend w) with
  | Thrown _ => store (snd (refreshToken backend w)) = empty_store
  | Returned a =>
      Js.truthy a = true /\
      exists rt, Js.truthy rt = true /\
                 store (snd (refreshToken backend w))
                 = mkStore (Some a) (Some rt)
  end.
Proof.
  destruct (refreshToken_shape backend w)
    as [(a & rt & Ha & Hrt & Hf & Hs) | (e & Hf & Hs)]; rewrite Hf.
  - split; [exact Ha | exists rt; split; assumption].
  - exact Hs.
Qed.

(** X2: A stored refresh token that is the empty string counts as absent:
    nothing is sent, the store is emptied and the "No refresh token
    found" error is thrown. *)
Theorem refreshToken_blank_refresh_token
    (backend : Backend) (a : option Js.value)
    (log : list Request) (u : list UiEvent) :
  refreshToken backend (mkWorld (mkStore a (Some (Js.Str ""))) log u)
  = (Thrown (Js.Error "No refresh token found"), mkWorld empty_store log u).
Proof.
  apply (refreshToken_no_refresh backend (mkStore a (Some (Js.Str ""))) log u).
  reflexivity.
Qed.

(** X3: A successful response whose body is [null] or [undefined] makes the
    destructuring throw a [TypeError]; the catch block empties the
    store and rethrows it. *)
Theorem refreshToken_null_body
    (backend : Backend) (s : TokenStore)
    (log : list Request) (u : list UiEvent) (data : Js.value) :
  Js.truthy (getRefreshToken_store s) = true ->
  backend (refresh_request (getRefreshToken_store s)) = Resolved data ->
  data = Js.Null \/ data = Js.Undefined ->
  refreshToken backend (mkWorld s log u)
  = (Thrown Js.TypeError,
     mkWorld empty_store
             (log ++ [refresh_request (getRefreshToken_store s)]) u).
Proof.
  intros Hr Hb Hd.
  apply (refreshToken_nullish_body backend s log u data Hr Hb).
  destruct Hd; subst data; reflexivity.
Qed.

Lemma refreshToken_null_body_witness :
  refreshToken (fun _ => Resolved Js.Null)
               (mkWorld (mkStore (Some (Js.Str "a0")) (Some (Js.Str "r0")))
                        [] [])
  = (Thrown Js.TypeError,
     mkWorld empty_store [refresh_request (Js.Str "r0")] []).
Proof.
  refine (refreshToken_null_body
            _ (mkStore (Some (Js.Str "a0")) (Some (Js.Str "r0")))
            [] [] _ _ _ _).
  - reflexivity.
  - reflexivity.
  - left. reflexivity.
Defined.

(** X4: Once a renewal has failed, the next one fails at once: it throws
    "No refresh token found" and changes nothing, in particular it sends
    no request, whatever the backend would now answer. *)
Theorem refreshToken_after_failure
    (backend backend' : Backend) (w : World) (e : Js.exn) :
  fst (refreshToken backend w) = Thrown e ->
  refreshToken backend' (snd (refreshToken backend w))
  = (Thrown (Js.Error "No refresh token found"),
     snd (refreshToken backend w)).
Proof.
  intros Hf.
  assert (Hc : store (snd (refreshToken backend w)) = empty_store).
  { destruct (refreshToken_shape backend w)
      as [(a & rt & _ & _ & Hr & _) | (e' & _ & Hs)];
      [rewrite Hf in Hr; discriminate Hr | exact Hs]. }
  destruct (snd (refreshToken backend w)) as [s' log' u'].
  simpl in Hc. subst s'.
  apply (refreshToken_no_refresh backend' empty_store log' u').
  reflexivity.
Qed.

Lemma refreshToken_after_failure_witness :
  refreshToken
    (fun _ => Resolved (Js.Obj [("access", Js.Str "a1")]))
    (snd (refreshToken
            (fun _ => Rejected Js.TypeError)
            (mkWorld (mkStore (Some (Js.Str "a0")) (Some (Js.Str "r0")))
                     [] [])))
  = (Thrown (Js.Error "No refresh token found"),
     snd (refreshToken
            (fun _ => Rejected Js.TypeError)
            (mkWorld (mkStore (Some (Js.Str "a0")) (Some (Js.Str "r0")))
                     [] []))).
Proof.
  refine (refreshToken_after_failure _ _ _ Js.TypeError _).
  reflexivity.
Defined.

(** X5: Two renewals in a row: when the first one succeeds, the second one
    sends the refresh token the first response carried if that was
    truthy, and the original one again otherwise. *)
Theorem refreshToken_twice_requests
    (backend backend' : Backend) (s : TokenStore)
    (log : list Request) (u : list UiEvent) (data : Js.value) :
  Js.truthy (getRefreshToken_store s) = true ->
  backend (refresh_request (getRefreshToken_store s)) = Resolved data ->
  Js.nullish data = false ->
  Js.truthy (Js.prop data "access") = true ->
  requests (snd (refreshToken backend'
                   (snd (refreshToken backend (mkWorld s log u)))))
  = (log ++ [refresh_request (getRefreshToken_store s);
             refresh_request
               (if Js.truthy (Js.prop data "refresh")
                then Js.prop data "refresh"
                else getRefreshToken_store s)])%list.
Proof.
  intros Hr Hb Hn Ha.
  rewrite (refreshToken_renewed backend s log u data Hr Hb Hn Ha).
  cbn [snd].
  rewrite refreshToken_sends_one_request_gen.
  - cbn [getRefreshToken_store refresh_slot]. unfold Js.or.
    rewrite <- app_assoc. reflexivity.
  - cbn [getRefreshToken_store refresh_slot]. apply or_truthy_r, Hr.
Qed.

Lemma refreshToken_twice_requests_witness :
  requests (snd (refreshToken
                   (fun _ => Rejected Js.TypeError)
                   (snd (refreshToken
                           (fun _ => Resolved
                              (Js.Obj [("access", Js.Str "a1");
                                       ("refresh", Js.Str "r1")]))
                           (mkWorld (mkStore None (Some (Js.Str "r0")))
                                    [] [])))))
  = [refresh_request (Js.Str "r0"); refresh_request (Js.Str "r1")].
Proof.
  refine (refreshToken_twice_requests
            _ _ (mkStore None (Some (Js.Str "r0"))) [] []
            (Js.Obj [("access", Js.Str "a1"); ("refresh", Js.Str "r1")])
            _ _ _ _).
  - reflexivity.
  - reflexivity.
  - reflexivity.
  - reflexivity.
Defined.

(** X6: The listing page and the renewal agree: the login check of
    [ListPropertyPage], run after [refreshToken], says "logged in"
    exactly when the renewal returned. *)
Theorem loggedIn_after_refreshToken (backend : Backend) (w : World) :
  fst (ListPropertyPage_loggedIn (snd (refreshToken backend w)))
  = Returned (match fst (refreshToken backend w) with
              | Returned _ => true
              | Thrown _ => false
              end).
Proof.
  unfold ListPropertyPage_loggedIn, bind, getAccessToken, ret, Js.not.
  cbn [fst].
  destruct (refreshToken_shape backend w)
    as [(a & rt & Ha & _ & Hf & Hs) | (e & Hf & Hs)];
    rewrite Hf, Hs; cbn.
  - rewrite Ha. reflexivity.
  - reflexivity.
Qed.

(* ================================================================= *)
(** ** Properties of the Google sign-in *)

(** The world after a sign-in that the backend answered. *)
Lemma googleLogin_resolved_world
    (backend : Backend) (token data : Js.value) (w : World) :
  backend (google_request token) = Resolved data ->
  snd (googleLogin_onSuccess backend (Js.Obj [("access_token", token)]) w)
  = mkWorld
      (setTokens_store
         (mkTokens (Js.opt_get (Js.opt_get data "tokens") "access")
                   (Js.opt_get (Js.opt_get data "tokens") "refresh"))
         (store w))
      (requests w ++ [google_request token])
      (ui w ++ [Snackbar (Js.Str "Logged in successfully") "success";
                InvalidateQueries ["userData"];
                Navigate "/"]).
Proof.
  intros Hb. unfold google_request in Hb.
  unfold googleLogin_onSuccess, mutate, try_catch, bind, lift, ret.
  cbn. unfold loginAPI, bind, api_post, ret. rewrite Hb.
  cbn. rewrite <- !app_assoc. reflexivity.
Qed.

(** X7: [loginAPI] never throws on a response, whatever its body (an empty
    object, a string, even [null]): it returns the fixed message; its
    [fullName] is the [name] of the response's [user] when that is
    truthy and the empty string otherwise, its [email] likewise the
    [email] of the response's [user]; so neither is ever [undefined]
    or [null]. *)
Theorem loginAPI_tolerates_any_body
    (backend : Backend) (token data : Js.value) (w : World) :
  backend (google_request token) = Resolved data ->
  let name := Js.opt_get (Js.opt_get data "user") "name" in
  let mail := Js.opt_get (Js.opt_get data "user") "email" in
  exists result,
    fst (loginAPI backend token w) = Returned result /\
    Js.prop result "message" = Js.Str "Logged in successfully" /\
    Js.prop (Js.prop result "user") "fullName"
    = (if Js.truthy name then name else Js.Str "") /\
    Js.prop (Js.prop result "user") "email"
    = (if Js.truthy mail then mail else Js.Str "") /\
    Js.nullish (Js.prop (Js.prop result "user") "fullName") = false /\
    Js.nullish (Js.prop (Js.prop result "user") "email") = false.
Proof.
  intros Hb name mail. unfold google_request in Hb.
  unfold loginAPI, bind, api_post, ret. rewrite Hb.
  eexists. split; [reflexivity |]. split; [reflexivity |].
  cbn. fold name mail. unfold Js.or.
  split; [reflexivity |]. split; [reflexivity |].
  split.
  - destruct (Js.truthy name) eqn:H; [| reflexivity].
    destruct name; try reflexivity; discriminate H.
  - destruct (Js.truthy mail) eqn:H; [| reflexivity].
    destruct mail; try reflexivity; discriminate H.
Qed.

Lemma loginAPI_tolerates_any_body_witness :
  let data := Js.Obj [("user", Js.Obj [("name", Js.Str "Ada");
                                       ("email", Js.Null)])] in
  exists result,
    fst (loginAPI (fun _ => Resolved data) (Js.Str "g") initial_world)
    = Returned result /\
    Js.prop result "message" = Js.Str "Logged in successfully" /\
    Js.prop (Js.prop result "user") "fullName" = Js.Str "Ada" /\
    Js.prop (Js.prop result "user") "email" = Js.Str "" /\
    Js.nullish (Js.prop (Js.prop result "user") "fullName") = false /\
    Js.nullish (Js.prop (Js.prop result "user") "email") = false.
Proof.
  refine (loginAPI_tolerates_any_body
            _ (Js.Str "g")
            (Js.Obj [("user", Js.Obj [("name", Js.Str "Ada");
                                      ("email", Js.Null)])])
            initial_world _).
  reflexivity.
Defined.

(** X8: Signing in with Google, when the backend answers at all: whatever
    the body of the response, the user is told "Logged in successfully",
    the user data is refetched and the page moves to "/"; the fallback
    text of the snackbar is never shown, and only the login request is
    sent. *)
Theorem googleLogin_success_path
    (backend : Backend) (token data : Js.value) (w : World) :
  backend (google_request token) = Resolved data ->
  let w' := snd (googleLogin_onSuccess backend
                   (Js.Obj [("access_token", token)]) w) in
  ui w' = (ui w ++ [Snackbar (Js.Str "Logged in successfully") "success";
                    InvalidateQueries ["userData"];
                    Navigate "/"])%list
  /\ requests w' = (requests w ++ [google_request token])%list.
Proof.
  intros Hb. unfold google_request in Hb.
  unfold googleLogin_onSuccess, mutate, try_catch, bind, lift, ret.
  cbn. unfold loginAPI, bind, api_post, ret. rewrite Hb.
  cbn. rewrite <- !app_assoc. split; reflexivity.
Qed.

Lemma googleLogin_success_path_witness :
  let w' := snd (googleLogin_onSuccess (fun _ => Resolved (Js.Obj []))
                   (Js.Obj [("access_token", Js.Str "g")]) initial_world) in
  ui w' = [Snackbar (Js.Str "Logged in successfully") "success";
           InvalidateQueries ["userData"];
           Navigate "/"]
  /\ requests w' = [google_request (Js.Str "g")].
Proof.
  refine (googleLogin_success_path _ (Js.Str "g") (Js.Obj []) initial_world _).
  reflexivity.
Defined.

(** X9: Signing in with Google, when the call is rejected with [e]: the
    response data of [e] is logged, one error snackbar is shown whose
    text is the server's [error] field when that is truthy and
    "Something went wrong" otherwise, the token store is left as it was
    and the page does not move. *)
Theorem googleLogin_failure_path
    (backend : Backend) (token : Js.value) (e : Js.exn) (w : World) :
  backend (google_request token) = Rejected e ->
  let d := Js.opt_get (Js.response_of e) "data" in
  let w' := snd (googleLogin_onSuccess backend
                   (Js.Obj [("access_token", token)]) w) in
  store w' = store w
  /\ ui w' = (ui w ++ [ConsoleErrorValue "Login error:" d;
                       Snackbar (if Js.truthy (Js.opt_get d "error")
                                 then Js.opt_get d "error"
                                 else Js.Str "Something went wrong")
                                "error"])%list.
Proof.
  intros Hb. unfold google_request in Hb.
  unfold googleLogin_onSuccess, mutate, try_catch, bind, lift, ret.
  cbn. unfold loginAPI, bind, api_post, ret. rewrite Hb.
  cbn. rewrite <- !app_assoc. split; reflexivity.
Qed.

Lemma googleLogin_failure_path_witness :
  let e := Js.AxiosError
             (Js.Obj [("data", Js.Obj [("error", Js.Str "Invalid token")])]) in
  let w' := snd (googleLogin_onSuccess (fun _ => Rejected e)
                   (Js.Obj [("access_token", Js.Str "g")]) initial_world) in
  store w' = empty_store
  /\ ui w' = [ConsoleErrorValue "Login error:"
                (Js.Obj [("error", Js.Str "Invalid token")]);
              Snackbar (Js.Str "Invalid token") "error"].
Proof.
  refine (googleLogin_failure_path
            _ (Js.Str "g")
            (Js.AxiosError
               (Js.Obj [("data", Js.Obj [("error", Js.Str "Invalid token")])]))
            initial_world _).
  reflexivity.
Defined.

(** X10: From sign-in to renewal: when the login response carries a truthy
    refresh token [rt] under [tokens.refresh], the first renewal after
    the sign-in sends exactly that token. *)
Theorem refreshToken_after_googleLogin
    (backend backend' : Backend) (token data rt : Js.value) (w : World) :
  backend (google_request token) = Resolved data ->
  Js.opt_get (Js.opt_get data "tokens") "refresh" = rt ->
  Js.truthy rt = true ->
  requests (snd (refreshToken backend'
                   (snd (googleLogin_onSuccess backend
                           (Js.Obj [("access_token", token)]) w))))
  = (requests w ++ [google_request token; refresh_request rt])%list.
Proof.
  intros Hb Hrt Ht.
  rewrite (googleLogin_resolved_world backend token data w Hb).
  rewrite Hrt, setTokens_store_truthy by exact Ht.
  rewrite refreshToken_sends_one_request_gen by exact Ht.
  rewrite <- app_assoc. reflexivity.
Qed.

Lemma refreshToken_after_googleLogin_witness :
  requests (snd (refreshToken
                   (fun _ => Rejected Js.TypeError)
                   (snd (googleLogin_onSuccess
                           (fun _ => Resolved
                              (Js.Obj [("tokens",
                                        Js.Obj [("access", Js.Str "a");
                                                ("refresh", Js.Str "r")])]))
                           (Js.Obj [("access_token", Js.Str "g")])
                           initial_world))))
  = [google_request (Js.Str "g"); refresh_request (Js.Str "r")].
Proof.
  refine (refreshToken_after_googleLogin
            _ _ (Js.Str "g")
            (Js.Obj [("tokens", Js.Obj [("access", Js.Str "a");
                                        ("refresh", Js.Str "r")])])
            (Js.Str "r") initial_world _ _ _).
  - reflexivity.
  - reflexivity.
  - reflexivity.
Defined.

(* ================================================================= *)
(** ** Properties of the save toggle *)

Lemma string_length_append (a b : string) :
  String.length (a ++ b) = String.length a + String.length b.
Proof.
  induction a as [| c a IH]; simpl; [reflexivity | rewrite IH; reflexivity].
Qed.

Lemma string_append_cancel_r (s : string) :
  forall a b : string, (a ++ s = b ++ s)%string -> a = b.
Proof.
  assert (Hlen : forall a b : string,
             String.length a = String.length b ->
             (a ++ s = b ++ s)%string -> a = b).
  { induction a as [| c a IH]; destruct b as [| d b]; simpl;
      intros Hl He; try discriminate Hl; [reflexivity |].
    injection He as Hc Ht. injection Hl as Hl.
    rewrite Hc, (IH b Hl Ht). reflexivity. }
  intros a b He. apply Hlen; [| exact He].
  apply (f_equal String.length) in He.
  rewrite !string_length_append in He. lia.
Qed.

Lemma string_append_cancel_l (s : string) :
  forall a b : string, (s ++ a = s ++ b)%string -> a = b.
Proof.
  induction s as [| c s IH]; simpl; intros a b He; [exact He |].
  injection He as He. apply IH, He.
Qed.

Lemma to_int_not_nil (z : Z) :
  Z.to_int z <> Decimal.Pos Decimal.Nil /\
  Z.to_int z <> Decimal.Neg Decimal.Nil.
Proof.
  destruct z as [| p | p]; simpl; split; intros H;
    try discriminate H; injection H as H;
    exact (DecimalPos.Unsigned.to_uint_nonnil p H).
Qed.

Lemma number_to_string_inj (a b : Z) :
  Js.to_string (Js.Number a) = Js.to_string (Js.Number b) -> a = b.
Proof.
  simpl. intros He.
  apply (f_equal NilZero.int_of_string) in He.
  destruct (to_int_not_nil a) as [Ha1 Ha2].
  destruct (to_int_not_nil b) as [Hb1 Hb2].
  rewrite !NilZero.isi in He by assumption.
  injection He as He. apply DecimalZ.to_int_inj, He.
Qed.

(** X11: Different properties are toggled at different addresses: the URL of
    the toggle request determines a numeric property id, and likewise a
    textual one. *)
Theorem toggleSave_url_injective :
  (forall a b : Z,
      toggleSave_url (Js.Number a) = toggleSave_url (Js.Number b) -> a = b)
  /\
  (forall a b : string,
      toggleSave_url (Js.Str a) = toggleSave_url (Js.Str b) -> a = b).
Proof.
  unfold toggleSave_url. split; intros a b He;
    apply string_append_cancel_l, string_append_cancel_r in He.
  - apply number_to_string_inj, He.
  - exact He.
Qed.

Lemma toggleSave_url_injective_witness :
  toggleSave_url (Js.Number 42) = "/auth/property/42/toggle-save/"
  /\ (6 * 7 = 42)%Z.
Proof.
  split; [reflexivity |].
  refine (proj1 toggleSave_url_injective (6 * 7)%Z 42%Z _).
  reflexivity.
Defined.

(** The three ways a toggle can go. *)
Lemma toggleSave_flow_unfold
    (backend : Backend) (propertyId : Js.value) (w : World) :
  toggleSave backend propertyId w
  = let rq := mkRequest POST (toggleSave_url propertyId) NoBody [] in
    let w1 := mkWorld (store w) (requests w ++ [rq]) (ui w) in
    match backend rq with
    | Resolved data =>
        match Js.get data "message" with
        | inr m =>
            (Returned tt,
             mkWorld (store w) (requests w ++ [rq])
                     (ui w ++ [Snackbar m "success";
                               InvalidateQueries ["savedProperties"]]))
        | inl e => toggleSave_onError e w1
        end
    | Rejected e => toggleSave_onError e w1
    end.
Proof.
  unfold toggleSave, mutate, toggleSaveAPI, try_catch, bind, api_post.
  cbn. destruct (backend _) as [data | e].
  - unfold toggleSave_onSuccess, bind, lift.
    destruct (Js.get data "message") as [e | m]; cbn.
    + reflexivity.
    + rewrite <- app_assoc. reflexivity.
  - reflexivity.
Qed.

(** X12: Toggling, when the backend answers with a body that has a
    [message]: that message is shown as a success snackbar, the saved
    properties are refetched, and one body-less POST was sent. *)
Theorem toggleSave_success_path
    (backend : Backend) (propertyId data m : Js.value) (w : World) :
  backend (mkRequest POST (toggleSave_url propertyId) NoBody [])
    = Resolved data ->
  Js.get data "message" = inr m ->
  toggleSave backend propertyId w
  = (Returned tt,
     mkWorld (store w)
             (requests w
              ++ [mkRequest POST (toggleSave_url propertyId) NoBody []])
             (ui w ++ [Snackbar m "success";
                       InvalidateQueries ["savedProperties"]])).
Proof.
  intros Hb Hm. rewrite toggleSave_flow_unfold. cbv zeta.
  rewrite Hb, Hm. reflexivity.
Qed.

Lemma toggleSave_success_path_witness :
  toggleSave (fun _ => Resolved (Js.Obj [("message", Js.Str "Saved")]))
             (Js.Number 7) initial_world
  = (Returned tt,
     mkWorld empty_store
             [mkRequest POST "/auth/property/7/toggle-save/" NoBody []]
             [Snackbar (Js.Str "Saved") "success";
              InvalidateQueries ["savedProperties"]]).
Proof.
  refine (toggleSave_success_path
            _ (Js.Number 7) (Js.Obj [("message", Js.Str "Saved")])
            (Js.Str "Saved") initial_world _ _).
  - reflexivity.
  - reflexivity.
Defined.

(** X13: Toggling, when the call is rejected with [e]: exactly one error
    snackbar is shown and the saved properties are not refetched; its
    text is never blank: it is the [detail] of the error's response
    data when that is truthy, and "Failed to toggle save." otherwise
    (in particular when no response was received at all). *)
Theorem toggleSave_failure_path
    (backend : Backend) (propertyId : Js.value) (e : Js.exn) (w : World) :
  backend (mkRequest POST (toggleSave_url propertyId) NoBody [])
    = Rejected e ->
  let detail :=
    Js.opt_get (Js.opt_get (Js.response_of e) "data") "detail" in
  exists text,
    Js.truthy text = true /\
    text = (if Js.truthy detail then detail
            else Js.Str "Failed to toggle save.") /\
    toggleSave backend propertyId w
    = (Returned tt,
       mkWorld (store w)
               (requests w
                ++ [mkRequest POST (toggleSave_url propertyId) NoBody []])
               (ui w ++ [Snackbar text "error"])).
Proof.
  intros Hb detail.
  exists (Js.or detail (Js.Str "Failed to toggle save.")).
  split; [apply or_truthy_r; reflexivity |].
  split; [reflexivity |].
  rewrite toggleSave_flow_unfold. cbv zeta. rewrite Hb. reflexivity.
Qed.

Lemma toggleSave_failure_path_witness :
  exists text,
    Js.truthy text = true /\
    text = Js.Str "Failed to toggle save." /\
    toggleSave (fun _ => Rejected (Js.AxiosError Js.Undefined))
               (Js.Number 7) initial_world
    = (Returned tt,
       mkWorld empty_store
               [mkRequest POST "/auth/property/7/toggle-save/" NoBody []]
               [Snackbar text "error"]).
Proof.
  refine (toggleSave_failure_path
            _ (Js.Number 7) (Js.AxiosError Js.Undefined) initial_world _).
  reflexivity.
Defined.

(* ================================================================= *)
(** ** Properties of the property creation *)



(** The messages of a validation error body, field by field. *)
Lemma join_strings (sep : string) (msgs : list string) :
  Js.join sep (map Js.Str msgs) = String.concat sep msgs.
Proof.
  unfold Js.join. rewrite map_map. simpl.
  f_equal. induction msgs as [| m msgs IH]; simpl; [reflexivity |].
  rewrite IH. reflexivity.
Qed.

Lemma flat_message_arrays (errs : list (string * list string)) :
  Js.flat (map snd (map (fun fe => (fst fe, Js.Arr (map Js.Str (snd fe))))
                        errs))
  = map Js.Str (concat (map snd errs)).
Proof.
  unfold Js.flat.
  induction errs as [| [k msgs] errs IH]; simpl; [reflexivity |].
  rewrite IH, map_app. reflexivity.
Qed.

(** X15: A validation error of the usual shape, an object that maps each
    rejected field to the list of its messages and has no [detail], is
    shown as all the messages in order, separated by single spaces. *)
Theorem createProperty_errMsg_validation
    (errs : list (string * list string)) :
  let body :=
    Js.Obj (map (fun fe => (fst fe, Js.Arr (map Js.Str (snd fe)))) errs) in
  let text := String.concat " " (concat (map snd errs)) in
  Js.prop body "detail" = Js.Undefined ->
  text <> "" ->
  createProperty_errMsg (Js.AxiosError (Js.Obj [("data", body)]))
  = inr (Js.Str text).
Proof.
  intros body text Hd Ht.
  unfold createProperty_errMsg. cbn -[Js.flat Js.join String.concat].
  fold body. cbn in Hd. rewrite Hd.
  cbn -[Js.flat Js.join String.concat].
  rewrite flat_message_arrays, join_strings. fold text.
  unfold Js.or. rewrite (truthy_Str text Ht). reflexivity.
Qed.

Lemma createProperty_errMsg_validation_witness :
  createProperty_errMsg
    (Js.AxiosError
       (Js.Obj [("data",
                 Js.Obj [("title", Js.Arr [Js.Str "This field is required."]);
                         ("price", Js.Arr [Js.Str "A valid number is required.";
                                           Js.Str "Too low."])])]))
  = inr (Js.Str
           "This field is required. A valid number is required. Too low.").
Proof.
  refine (createProperty_errMsg_validation
            [("title", ["This field is required."]);
             ("price", ["A valid number is required."; "Too low."])] _ _).
  - reflexivity.
  - discriminate.
Defined.

Lemma chars_as_strings (s : string) :
  Js.chars s
  = map Js.Str (map (fun c => String c EmptyString) (list_ascii_of_string s)).
Proof.
  induction s as [| c s IH]; simpl; [reflexivity | rewrite IH; reflexivity].
Qed.

(** X16: An error body that is plain text (a page that is not JSON) is
    shown letter by letter: its characters separated by spaces. *)
Theorem createProperty_errMsg_text_body (c : Ascii.ascii) (rest : string) :
  createProperty_errMsg
    (Js.AxiosError (Js.Obj [("data", Js.Str (String c rest))]))
  = inr (Js.Str (String.concat " "
                   (map (fun ch => String ch EmptyString)
                        (list_ascii_of_string (String c rest))))).
Proof.
  unfold createProperty_errMsg.
  cbn -[Js.flat Js.join String.concat Js.chars list_ascii_of_string].
  rewrite chars_as_strings.
  assert (Hflat : forall l : list string,
             Js.flat (map Js.Str l) = map Js.Str l).
  { unfold Js.flat. induction l as [| x l IH]; simpl;
      [reflexivity | rewrite IH; reflexivity]. }
  rewrite Hflat, join_strings.
  unfold Js.or. rewrite truthy_Str; [reflexivity |].
  simpl. destruct (map _ (list_ascii_of_string rest)); discriminate.
Qed.



(** X18: Creating a property, when the backend answers: whatever the body of
    the response, the fixed success snackbar is shown and the user's and
    the global property lists are refetched, in this order. *)
Theorem createProperty_success_path
    (backend : Backend) (payload : list (string * FormValue))
    (data : Js.value) (w : World) :
  let rq := mkRequest POST "/auth/property/create/" (FormBody payload)
                      [("Content-Type", "multipart/form-data")] in
  backend rq = Resolved data ->
  createProperty backend payload w
  = (Returned tt,
     mkWorld (store w) (requests w ++ [rq])
             (ui w ++ [Snackbar (Js.Str "Property created successfully!")
                                "success";
                       InvalidateQueries ["userProperties"];
                       InvalidateQueries ["allProperties"]])).
Proof.
  intros rq Hb.
  unfold createProperty, mutate, createPropertyAPI, try_catch, bind, api_post.
  cbn. fold rq. rewrite Hb. cbn. rewrite <- !app_assoc. reflexivity.
Qed.

Lemma createProperty_success_path_witness :
  createProperty (fun _ => Resolved Js.Null) [] initial_world
  = (Returned tt,
     mkWorld empty_store
             [mkRequest POST "/auth/property/create/" (FormBody [])
                        [("Content-Type", "multipart/form-data")]]
             [Snackbar (Js.Str "Property created successfully!") "success";
              InvalidateQueries ["userProperties"];
              InvalidateQueries ["allProperties"]]).
Proof.
  refine (createProperty_success_path _ [] Js.Null initial_world _).
  reflexivity.
Defined.

(* ================================================================= *)
(** ** Properties of ListPropertyPage *)

Lemma payload_files_images (imgs : list ImgObj) :
  payload_files (map (fun imgObj => ("images", FFile (file imgObj))) imgs)
  = map file imgs.
Proof.
  induction imgs as [| i imgs IH]; simpl; [reflexivity | rewrite IH; reflexivity].
Qed.

(** X19: The payload of a submission has the thirteen text fields followed
    by one entry per picked image: no image is dropped, none is sent
    twice, and the files keep the order of [formData.images], each under
    the key "images". *)
Theorem handleSubmit_payload_images (fd : FormDataState) :
  length (handleSubmit_payload fd) = 13 + length (images fd)
  /\ payload_files (handleSubmit_payload fd) = map file (images fd)
  /\ skipn 13 (handleSubmit_payload fd)
     = map (fun imgObj => ("images", FFile (file imgObj))) (images fd).
Proof.
  unfold handleSubmit_payload. split; [| split].
  - rewrite length_app, length_map. reflexivity.
  - cbn -[map]. apply payload_files_images.
  - reflexivity.
Qed.

Lemma step_submitting (p : PageState) (ev : PageEvent) :
  submitting_while_unsettled p ->
  submitting_while_unsettled (step p ev).
Proof.
  unfold submitting_while_unsettled, step, render, isCreating.
  intros Hp.
  destruct p as [fd sp li sub st].
  destruct ev as [fd' | b | | [|] |]; destruct li, st, sub; simpl in *;
    try exact I; try reflexivity; try discriminate Hp.
Qed.

Lemma run_page_snoc (evs : list PageEvent) (ev : PageEvent) (p : PageState) :
  run_page (evs ++ [ev]) p = step (run_page evs p) ev.
Proof. unfold run_page. rewrite fold_left_app. reflexivity. Qed.

Lemma run_page_submitting (evs : list PageEvent) (p : PageState) :
  submitting_while_unsettled p ->
  submitting_while_unsettled (run_page evs p).
Proof.
  intros Hp. induction evs as [| ev evs IH] using rev_ind.
  - exact Hp.
  - rewrite run_page_snoc. apply step_submitting, IH.
Qed.

(** X20: The error alert of the page is dead: whatever the user does and
    however the submissions end, no state reached from a freshly
    mounted page renders the listing form with the "Failed to list
    property" alert. *)
Theorem error_alert_never_rendered
    (token : Js.value) (evs : list PageEvent) (m pv : bool) :
  render (run_page evs (mounted token)) <> ListingForm m true pv.
Proof.
  pose proof (run_page_submitting evs (mounted token) I) as Hinv.
  destruct (run_page evs (mounted token)) as [fd sp li sub st].
  unfold submitting_while_unsettled in Hinv. unfold render, isCreating,
    isCreated, isCreateError. simpl in *.
  destruct li; simpl; [| discriminate].
  destruct st; simpl; try discriminate.
  - destruct sub; simpl; discriminate.
  - destruct sub; simpl; discriminate.
  - rewrite Hinv. discriminate.
Qed.

Lemma stuck_step (p : PageState) (ev : PageEvent) :
  isLoggedIn p = true -> isSubmitting p = true -> status p = Failed ->
  step p ev = p.
Proof.
  intros Hl Hs Hf. destruct p as [fd sp li sub st]. simpl in *. subst.
  destruct ev as [fd' | b | | [|] |]; reflexivity.
Qed.

(** X21: After a submission has failed the page is stuck: it shows the
    "Submitting your property..." loader, and no later event changes
    its state. *)
Theorem failed_submission_sticks
    (p : PageState) (later : list PageEvent) :
  render p = ListingForm (isCreated p) (isCreateError p) (showPreview p) ->
  let failed := run_page [Submit; Settled false] p in
  run_page later failed = failed
  /\ render failed = SubmittingLoader.
Proof.
  intros Hr failed.
  assert (Hf : isLoggedIn failed = true /\ isSubmitting failed = true
               /\ status failed = Failed).
  { unfold failed. destruct p as [fd sp li sub st].
    unfold render, isCreating in Hr. simpl in Hr.
    destruct li, st, sub; simpl in Hr; try discriminate Hr;
      cbn; auto. }
  destruct Hf as (Hl & Hs & Hst). split.
  - induction later as [| ev later IH] using rev_ind; [reflexivity |].
    rewrite run_page_snoc, IH. apply stuck_step; assumption.
  - unfold render. rewrite Hl, Hs. simpl. rewrite orb_true_r. reflexivity.
Qed.

Lemma failed_submission_sticks_witness :
  let failed := run_page [Submit; Settled false] (mounted (Js.Str "a")) in
  run_page [Submit; Settled true; CloseSuccessModal; SetPreview true] failed
  = failed
  /\ render failed = SubmittingLoader.
Proof.
  refine (failed_submission_sticks (mounted (Js.Str "a")) _ _).
  reflexivity.
Defined.

(** X22: Without an access token in the store at mount time (none stored, or
    an empty one) the page shows the login prompt and keeps showing it:
    no event leads to the form or to a submission. *)
Theorem logged_out_page_stays_locked
    (token : Js.value) (evs : list PageEvent) :
  Js.truthy token = false ->
  render (run_page evs (mounted token)) = LoginPrompt
  /\ status (run_page evs (mounted token)) = Idle.
Proof.
  intros Ht.
  assert (Hfix : forall ev, step (mounted token) ev = mounted token).
  { intros ev. unfold step, render, mounted, Js.not. simpl. rewrite Ht. simpl.
    destruct ev as [fd | b | | [|] |]; reflexivity. }
  assert (Hrun : run_page evs (mounted token) = mounted token).
  { induction evs as [| ev evs IH] using rev_ind; [reflexivity |].
    rewrite run_page_snoc, IH. apply Hfix. }
  rewrite Hrun. unfold render, mounted, Js.not. simpl. rewrite Ht.
  split; reflexivity.
Qed.

Lemma logged_out_page_stays_locked_witness :
  render (run_page [Submit; Settled true; SetPreview true]
                   (mounted Js.Null)) = LoginPrompt
  /\ status (run_page [Submit; Settled true; SetPreview true]
                      (mounted Js.Null)) = Idle.
Proof.
  refine (logged_out_page_stays_locked Js.Null _ _). reflexivity.
Defined.
